(** * OpenRouterProvider: a shallow embedding

    Source: [src/agents/models/openrouter_provider.py].

    The module is a subclass of [OpenAIProvider] that fixes the endpoint,
    forces the chat-completions format, runs two guarded assignments to
    the attribution headers of the (shared) client object and resolves a
    model name to a model object.  Python objects that are shared (the
    [AsyncOpenAI] client) live in a heap and are passed around by
    reference; methods are computations in a state-and-exception monad
    over a world made of [self] and the heap. *)

From stdpp Require Import gmap strings list fin_maps.

Open Scope string_scope.

(** ** Python values *)

(** Truth value of a [str | None]: [None] and [""] are falsy. *)
Definition truthy (o : option string) : bool :=
  match o with
  | None => false
  | Some EmptyString => false
  | Some (String _ _) => true
  end.

(** References to heap-allocated client objects. *)
Definition ref := nat.

(** The protocol client, as far as this module reads it: the
    credential and endpoint it was constructed with and the headers its
    [default_headers] attribute reports (string keys, string values).
    In the client library that attribute is a property computed from
    the state of the client. *)
Record AsyncOpenAI := mkAsyncOpenAI {
  api_key : option string;
  base_url : string;
  default_headers : gmap string string
}.

(** The client with the header [k] set to [v] in its own state, as a
    holder of the handle can do through the client's header options. *)
Definition setitem_headers (k v : string) (cl : AsyncOpenAI) : AsyncOpenAI :=
  {| api_key := api_key cl;
     base_url := base_url cl;
     default_headers := <[k := v]> (default_headers cl) |}.

(** The client with the header [k] removed from its own state, used
    only to describe what other holders of the handle may do. *)
Definition delitem_headers (k : string) (cl : AsyncOpenAI) : AsyncOpenAI :=
  {| api_key := api_key cl;
     base_url := base_url cl;
     default_headers := delete k (default_headers cl) |}.

(** The two implementations of the [Model] interface a provider may
    hand out.  Both store the name and borrow the client handle. *)
Inductive Model :=
| OpenAIChatCompletionsModel (model : string) (openai_client : ref)
| OpenAIResponsesModel (model : string) (openai_client : ref).

Definition model_of (m : Model) : string :=
  match m with
  | OpenAIChatCompletionsModel n _ => n
  | OpenAIResponsesModel n _ => n
  end.

Definition client_of (m : Model) : ref :=
  match m with
  | OpenAIChatCompletionsModel _ c => c
  | OpenAIResponsesModel _ c => c
  end.

Definition is_chat_completions (m : Model) : bool :=
  match m with
  | OpenAIChatCompletionsModel _ _ => true
  | OpenAIResponsesModel _ _ => false
  end.

(** ** Objects *)

(** Fields of the base class [OpenAIProvider]. *)
Record OpenAIProvider := mkOpenAIProvider {
  _client : option ref;
  _stored_api_key : option string;
  _stored_base_url : option string;
  _use_responses : bool
}.

(** An [OpenRouterProvider] instance: the inherited fields and the two
    attributes [__init__] stores. *)
Record OpenRouterProvider := mkOpenRouterProvider {
  super : OpenAIProvider;
  _http_referer : option string;
  _site_title : option string
}.

(** The world a method runs in: the receiver and the heap of clients. *)
Record World := mkWorld {
  self : OpenRouterProvider;
  heap : list AsyncOpenAI
}.

(** ** Constants of the module *)

Definition DEFAULT_MODEL : string := "openai/gpt-4o".

(** ** A sample client library and sample worlds

    Used to run the definitions on concrete inputs: a constructor that
    wants a credential and starts every client with a "User-Agent"
    header, and exceptions that are their messages. *)

Definition sample_new (api_key base_url : option string) : string + gmap string string :=
  match api_key with
  | Some _ => inr {[ "User-Agent" := "AsyncOpenAI/Python" ]}
  | None => inl "The api_key client option must be set"
  end.

(** A provider with both attribution values and no client yet. *)
Definition sample_attributed : World :=
  {| self := {| super := {| _client := None;
                            _stored_api_key := Some "sk-or-1";
                            _stored_base_url := Some "https://openrouter.ai/api/v1";
                            _use_responses := false |};
                _http_referer := Some "https://example.com";
                _site_title := Some "My App" |};
     heap := [] |}.

(** A provider without referer and with an empty title, whose cached
    client is the second of two in the heap. *)
Definition sample_plain : World :=
  {| self := {| super := {| _client := Some 1;
                            _stored_api_key := None;
                            _stored_base_url := Some "https://openrouter.ai/api/v1";
                            _use_responses := false |};
                _http_referer := None;
                _site_title := Some "" |};
     heap := [ {| api_key := Some "sk-other";
                  base_url := "https://api.openai.com/v1";
                  default_headers := ∅ |};
               {| api_key := Some "sk-or-2";
                  base_url := "https://openrouter.ai/api/v1";
                  default_headers := {[ "User-Agent" := "AsyncOpenAI/Python" ]} |} ] |}.

(** A provider with both attribution values whose cached client already
    carries a referer that another holder of the handle has set. *)
Definition sample_preset : World :=
  {| self := {| super := {| _client := Some 0;
                            _stored_api_key := Some "sk-or-3";
                            _stored_base_url := Some "https://openrouter.ai/api/v1";
                            _use_responses := false |};
                _http_referer := Some "https://example.com";
                _site_title := Some "My App" |};
     heap := [ {| api_key := Some "sk-or-3";
                  base_url := "https://openrouter.ai/api/v1";
                  default_headers := {[ "HTTP-Referer" := "https://elsewhere.org" ]} |} ] |}.

Section Provider.

(** Exceptions of the collaborators (the client library). *)
Variable E : Type.

(** The client library's constructor [AsyncOpenAI(api_key=, base_url=)]:
    it either raises or yields the headers the new client starts with. *)
Variable AsyncOpenAI_new : option string -> option string -> E + gmap string string.

(** The endpoint the client library falls back to when given none. *)
Variable library_base_url : string.

(** The process-wide default the base class consults when
    [use_responses] is not given. *)
Variable use_responses_by_default : bool.

(** ** Computations *)

(** Outcome of a method call: a value and the new world, an exception
    of a collaborator, or a read through a reference that points at no
    object ([Dangling]; Python has no such state, see [client_valid]). *)
Inductive outcome (A : Type) :=
| Ok (a : A) (w : World)
| Raise (e : E)
| Dangling.
Arguments Ok {A} a w.
Arguments Raise {A} e.
Arguments Dangling {A}.

Definition M (A : Type) : Type := World -> outcome A.

Definition ret {A} (a : A) : M A := fun w => Ok a w.

Definition bind {A B} (m : M A) (k : A -> M B) : M B :=
  fun w =>
    match m w with
    | Ok a w' => k a w'
    | Raise e => Raise e
    | Dangling => Dangling
    end.

#[local] Instance M_ret : MRet M := @ret.
#[local] Instance M_bind : MBind M := fun A B k m => bind m k.

Definition raise {A} (e : E) : M A := fun _ => Raise e.

Definition get_self : M OpenRouterProvider := fun w => Ok (self w) w.

(** [self._client = c] *)
Definition set_client (c : ref) : M unit :=
  fun w =>
    let p := self w in
    let b := super p in
    Ok tt {| self := {| super := {| _client := Some c;
                                    _stored_api_key := _stored_api_key b;
                                    _stored_base_url := _stored_base_url b;
                                    _use_responses := _use_responses b |};
                        _http_referer := _http_referer p;
                        _site_title := _site_title p |};
             heap := heap w |}.

(** Allocation of a new client object. *)
Definition alloc (cl : AsyncOpenAI) : M ref :=
  fun w => Ok (length (heap w)) {| self := self w; heap := heap w ++ [cl] |}.

(** [client.default_headers] read through the handle.  The attribute
    is a property of the client: every read builds a new dict from the
    state of the client and returns it, so the dict read is an object
    nothing else refers to. *)
Definition get_default_headers (c : ref) : M (gmap string string) :=
  fun w =>
    match heap w !! c with
    | Some cl => Ok (default_headers cl) w
    | None => Dangling
    end.

(** [client.default_headers[k] = v] through the handle.  Python reads
    [client.default_headers] and stores into the dict that read
    returned.  That dict is the new one the property built: the store
    changes it and not the client, and it is dropped with the
    statement. *)
Definition setitem_default_headers (c : ref) (k v : string) : M unit :=
  hdrs ← get_default_headers c;
  let _ := <[k := v]> hdrs in
  ret tt.

(** ** The base class [OpenAIProvider] *)

(** Modelled from the spec: [OpenAIProvider.__init__] is not among the
    sources.  It stores the credential and the endpoint, starts with no
    client, and takes the format selector from the argument when one is
    given and from the process-wide default otherwise. *)
Definition OpenAIProvider__init__
    (api_key base_url : option string) (use_responses : option bool) : OpenAIProvider :=
  {| _client := None;
     _stored_api_key := api_key;
     _stored_base_url := base_url;
     _use_responses := match use_responses with
                       | Some b => b
                       | None => use_responses_by_default
                       end |}.

(** Modelled from the spec: the client constructor of the library, which
    is not among the sources.  The new client is bound to the endpoint
    it is given (the library's own when none is given). *)
Definition AsyncOpenAI__init__ (api_key base_url : option string) : M ref :=
  match AsyncOpenAI_new api_key base_url with
  | inl e => raise e
  | inr hdrs =>
      alloc {| api_key := api_key;
               base_url := match base_url with
                           | Some u => u
                           | None => library_base_url
                           end;
               default_headers := hdrs |}
  end.

(** Modelled from the spec: [OpenAIProvider._get_client] is not among the
    sources.  The client is created on first use from the stored
    credential and endpoint, cached in [self._client], and reused. *)
Definition OpenAIProvider_get_client : M ref :=
  p ← get_self;
  match _client (super p) with
  | Some c => ret c
  | None =>
      c ← AsyncOpenAI__init__ (_stored_api_key (super p)) (_stored_base_url (super p));
      set_client c;;
      ret c
  end.

(** ** [OpenRouterProvider] *)

(** [__init__(self, *, api_key, http_referer, site_title, use_responses)] *)
Definition __init__
    (api_key http_referer site_title : option string)
    (use_responses : option bool) : OpenRouterProvider :=
  {| super := OpenAIProvider__init__ api_key (Some "https://openrouter.ai/api/v1") (Some false);
     _http_referer := http_referer;
     _site_title := site_title |}.

(** [if value and key not in client.default_headers:
         client.default_headers[key] = value]
    The conjunction is short-circuit: the headers are read only when
    the configured value is truthy. *)
Definition add_header_if_missing (client : ref) (key : string) (value : option string) : M unit :=
  match value with
  | Some v =>
      if truthy value then
        hdrs ← get_default_headers client;
        if bool_decide (key ∈ dom hdrs) then ret tt
        else setitem_default_headers client key v
      else ret tt
  | None => ret tt
  end.

(** [_get_client(self)] *)
Definition _get_client : M ref :=
  client ← OpenAIProvider_get_client;
  p ← get_self;
  add_header_if_missing client "HTTP-Referer" (_http_referer p);;
  add_header_if_missing client "X-Title" (_site_title p);;
  ret client.

(** [get_model(self, model_name)] *)
Definition get_model (model_name : option string) : M Model :=
  let model_name :=
    match model_name with
    | None => DEFAULT_MODEL
    | Some n => n
    end in
  client ← _get_client;
  ret (OpenAIChatCompletionsModel model_name client).

(** ** Derived notions used in the statements *)

(** The provider with [c] cached. *)
Definition caching (c : ref) (p : OpenRouterProvider) : OpenRouterProvider :=
  {| super := {| _client := Some c;
                 _stored_api_key := _stored_api_key (super p);
                 _stored_base_url := _stored_base_url (super p);
                 _use_responses := _use_responses (super p) |};
     _http_referer := _http_referer p;
     _site_title := _site_title p |}.

(** The client the base class creates for [p] when the library starts
    it with the headers [hdrs]. *)
Definition created (p : OpenRouterProvider) (hdrs : gmap string string) : AsyncOpenAI :=
  {| api_key := _stored_api_key (super p);
     base_url := match _stored_base_url (super p) with
                 | Some u => u
                 | None => library_base_url
                 end;
     default_headers := hdrs |}.

(** The world with the client at [c] replaced. *)
Definition store (c : ref) (cl : AsyncOpenAI) (w : World) : World :=
  {| self := self w; heap := <[c := cl]> (heap w) |}.

(** A configuration value that was not given or is the empty string. *)
Definition absent_or_empty (o : option string) : Prop := o = None ∨ o = Some "".

(** The cached handle, when there is one, points at a client object.
    Every world a Python run can be in satisfies this. *)
Definition client_valid (w : World) : Prop :=
  ∀ c, _client (super (self w)) = Some c → is_Some (heap w !! c).

(** What can happen to the world of a provider: its own methods return,
    another holder of a handle sets or removes a header of the client,
    or other code creates a client. *)
Inductive step : World → World → Prop :=
| step_get_client w c w' :
    _get_client w = Ok c w' → step w w'
| step_get_model w n m w' :
    get_model n w = Ok m w' → step w w'
| step_setitem w c cl k v :
    heap w !! c = Some cl →
    step w {| self := self w; heap := <[c := setitem_headers k v cl]> (heap w) |}
| step_delitem w c cl k :
    heap w !! c = Some cl →
    step w {| self := self w; heap := <[c := delitem_headers k cl]> (heap w) |}
| step_alloc w cl :
    step w {| self := self w; heap := heap w ++ [cl] |}.

(** The world right after construction, next to whatever clients the
    process already has. *)
Definition constructed
    (api_key http_referer site_title : option string) (use_responses : option bool)
    (h : list AsyncOpenAI) : World :=
  {| self := __init__ api_key http_referer site_title use_responses; heap := h |}.

(** The provider is configured for the gateway and its cached client,
    when there is one, is bound to the gateway's endpoint. *)
Definition gateway_inv (w : World) : Prop :=
  _stored_base_url (super (self w)) = Some "https://openrouter.ai/api/v1" ∧
  _use_responses (super (self w)) = false ∧
  ∀ c, _client (super (self w)) = Some c →
       ∃ cl, heap w !! c = Some cl ∧ base_url cl = "https://openrouter.ai/api/v1".

(** * Properties *)

Ltac run := unfold mbind, M_bind, bind, mret, M_ret, ret, raise, get_self in *; simpl in *.

(** ** The base class *)

Lemma base_get_client_cached w c :
  _client (super (self w)) = Some c →
  OpenAIProvider_get_client w = Ok c w.
Proof. intros Hc. unfold OpenAIProvider_get_client. run. by rewrite Hc. Qed.

Lemma base_get_client_raise w e :
  _client (super (self w)) = None →
  AsyncOpenAI_new (_stored_api_key (super (self w))) (_stored_base_url (super (self w))) = inl e →
  OpenAIProvider_get_client w = Raise e.
Proof.
  intros Hc He. unfold OpenAIProvider_get_client, AsyncOpenAI__init__. run.
  by rewrite Hc, He.
Qed.

Lemma base_get_client_new w hdrs :
  _client (super (self w)) = None →
  AsyncOpenAI_new (_stored_api_key (super (self w))) (_stored_base_url (super (self w))) = inr hdrs →
  OpenAIProvider_get_client w =
    Ok (length (heap w))
       {| self := caching (length (heap w)) (self w);
          heap := heap w ++ [created (self w) hdrs] |}.
Proof.
  intros Hc Hn. unfold OpenAIProvider_get_client, AsyncOpenAI__init__. run.
  by rewrite Hc, Hn.
Qed.

(** A returned handle is either the cached one, with the world as it
    was, or that of a client created just now at the end of the heap. *)
Lemma base_get_client_Ok w c w0 :
  OpenAIProvider_get_client w = Ok c w0 →
  (_client (super (self w)) = Some c ∧ w0 = w) ∨
  (_client (super (self w)) = None ∧ c = length (heap w) ∧
   ∃ hdrs,
     AsyncOpenAI_new (_stored_api_key (super (self w))) (_stored_base_url (super (self w)))
       = inr hdrs ∧
     w0 = {| self := caching c (self w); heap := heap w ++ [created (self w) hdrs] |}).
Proof.
  unfold OpenAIProvider_get_client, AsyncOpenAI__init__. run.
  destruct (_client (super (self w))) as [c'|] eqn:Hc.
  - intros [= -> ->]. by left.
  - destruct (AsyncOpenAI_new _ _) as [e|hdrs] eqn:Hn; [done|].
    unfold alloc, set_client. simpl. intros [= <- <-]. right. eauto.
Qed.

Lemma base_get_client_Raise w e :
  OpenAIProvider_get_client w = Raise e →
  _client (super (self w)) = None ∧
  AsyncOpenAI_new (_stored_api_key (super (self w))) (_stored_base_url (super (self w))) = inl e.
Proof.
  unfold OpenAIProvider_get_client, AsyncOpenAI__init__. run.
  destruct (_client (super (self w))); [done|].
  destruct (AsyncOpenAI_new _ _) as [e'|hdrs]; [|done].
  by intros [= ->].
Qed.

Lemma base_get_client_not_Dangling w :
  OpenAIProvider_get_client w ≠ Dangling.
Proof.
  unfold OpenAIProvider_get_client, AsyncOpenAI__init__. run.
  destruct (_client (super (self w))); [done|].
  by destruct (AsyncOpenAI_new _ _).
Qed.

(** The handle the base class returns is the cached one afterwards and
    the configuration is the one before. *)
Lemma base_get_client_self w c w0 :
  OpenAIProvider_get_client w = Ok c w0 →
  self w0 = caching c (self w).
Proof.
  intros [[Hc ->]|(_ & _ & hdrs & _ & ->)]%base_get_client_Ok; [|done].
  unfold caching. destruct (self w) as [[] ? ?]. simpl in *. by subst.
Qed.

(** ** The two header statements *)

(** On a handle that points at a client the statement changes nothing:
    what it assigns to is the dict the read of [default_headers] built. *)
Lemma add_header_if_missing_run c key value w cl :
  heap w !! c = Some cl →
  add_header_if_missing c key value w = Ok tt w.
Proof.
  intros Hcl. unfold add_header_if_missing.
  destruct value as [v|]; [|done]. destruct (truthy (Some v)); [|done].
  unfold setitem_default_headers, get_default_headers. run. rewrite Hcl.
  destruct (bool_decide _); [done|]. by rewrite Hcl.
Qed.

Lemma add_header_if_missing_not_Raise c key value w e :
  add_header_if_missing c key value w ≠ Raise e.
Proof.
  unfold add_header_if_missing.
  destruct value as [v|]; [|done]. destruct (truthy (Some v)); [|done].
  unfold setitem_default_headers, get_default_headers. run.
  destruct (heap w !! c) eqn:Hc; [|done].
  destruct (bool_decide _); [done|]. by rewrite Hc.
Qed.

Lemma add_header_if_missing_dangling c key value w :
  heap w !! c = None →
  add_header_if_missing c key value w = if truthy value then Dangling else Ok tt w.
Proof.
  intros Hc. unfold add_header_if_missing.
  destruct value as [v|]; [|done]. destruct (truthy (Some v)); [|done].
  unfold get_default_headers. run. by rewrite Hc.
Qed.

(** ** [_get_client] *)

(** On a handle that points at a client, [_get_client] returns it and
    leaves the world as the base class left it. *)
Lemma _get_client_run w c w0 cl :
  OpenAIProvider_get_client w = Ok c w0 →
  heap w0 !! c = Some cl →
  _get_client w = Ok c w0.
Proof.
  intros Hb Hcl. unfold _get_client. run. rewrite Hb.
  rewrite (add_header_if_missing_run _ _ _ _ cl) by done.
  by rewrite (add_header_if_missing_run _ _ _ _ cl) by done.
Qed.

Lemma _get_client_Raise w e :
  _get_client w = Raise e ↔ OpenAIProvider_get_client w = Raise e.
Proof.
  unfold _get_client. run.
  destruct (OpenAIProvider_get_client w) as [c w0| |]; [|done..].
  split; [|done].
  destruct (add_header_if_missing c "HTTP-Referer" _ w0) as [[] w1| |] eqn:H1.
  - destruct (add_header_if_missing c "X-Title" _ w1) as [[] w2| |] eqn:H2; [done| |done].
    intros [= ->]. by apply add_header_if_missing_not_Raise in H2.
  - intros [= ->]. by apply add_header_if_missing_not_Raise in H1.
  - done.
Qed.

(** What a returning [_get_client] has done: what the base class did.
    It has read the headers through the handle unless both attribution
    values are falsy. *)
Lemma _get_client_Ok w c w' :
  _get_client w = Ok c w' →
  OpenAIProvider_get_client w = Ok c w' ∧
  (is_Some (heap w' !! c) ∨
   (truthy (_http_referer (self w')) = false ∧ truthy (_site_title (self w')) = false)).
Proof.
  intros Hg.
  destruct (OpenAIProvider_get_client w) as [c0 w0| |] eqn:Hb.
  - destruct (heap w0 !! c0) as [cl|] eqn:Hcl.
    + rewrite (_get_client_run _ _ _ _ Hb Hcl) in Hg. injection Hg as <- <-.
      rewrite Hcl. eauto.
    + revert Hg. unfold _get_client. run. rewrite Hb.
      rewrite add_header_if_missing_dangling by done.
      destruct (truthy (_http_referer (self w0))) eqn:Hr; [done|].
      rewrite add_header_if_missing_dangling by done.
      destruct (truthy (_site_title (self w0))) eqn:Ht; [done|].
      intros [= <- <-]. eauto.
  - revert Hg. unfold _get_client. run. by rewrite Hb.
  - revert Hg. unfold _get_client. run. by rewrite Hb.
Qed.

Lemma truthy_false o : truthy o = false ↔ absent_or_empty o.
Proof.
  unfold absent_or_empty.
  destruct o as [[|a v]|]; simpl; split; intros H; eauto; try done.
  by destruct H.
Qed.

(** ** After a call *)

(** The handle [_get_client] returns is the cached one afterwards, and
    the attribution values of the provider are the ones before. *)
Lemma _get_client_self w c w' :
  _get_client w = Ok c w' → self w' = caching c (self w).
Proof.
  intros Hg. apply _get_client_Ok in Hg as [Hb _].
  by apply base_get_client_self in Hb.
Qed.

(** A second call changes nothing at all. *)
Lemma _get_client_again w c w1 :
  _get_client w = Ok c w1 → _get_client w1 = Ok c w1.
Proof.
  intros Hg. pose proof (_get_client_self _ _ _ Hg) as Hs.
  assert (Hb1 : OpenAIProvider_get_client w1 = Ok c w1).
  { apply base_get_client_cached. by rewrite Hs. }
  apply _get_client_Ok in Hg as [_ [[cl Hcl]|[Hr Ht]]].
  - by apply (_get_client_run _ _ _ cl).
  - unfold _get_client. run. rewrite Hb1.
    destruct (heap w1 !! c) as [cl|] eqn:Hcl.
    + rewrite (add_header_if_missing_run _ _ _ _ cl) by done.
      by rewrite (add_header_if_missing_run _ _ _ _ cl) by done.
    + rewrite add_header_if_missing_dangling, Hr by done.
      by rewrite add_header_if_missing_dangling, Ht by done.
Qed.

(** With a valid cache, the handle of the base class points at a client. *)
Lemma base_get_client_valid w c w0 :
  client_valid w →
  OpenAIProvider_get_client w = Ok c w0 →
  is_Some (heap w0 !! c).
Proof.
  intros Hv [[Hc ->]|(_ & -> & hdrs & _ & ->)]%base_get_client_Ok; [by apply Hv|].
  simpl. apply lookup_lt_is_Some. rewrite length_app. simpl. lia.
Qed.

(** [_get_client] never reads through a dangling handle when the cache
    is valid. *)
Lemma _get_client_not_Dangling w :
  client_valid w → _get_client w ≠ Dangling.
Proof.
  intros Hv Hd. destruct (OpenAIProvider_get_client w) as [c w0|e|] eqn:Hb.
  - destruct (base_get_client_valid _ _ _ Hv Hb) as [cl Hcl].
    by rewrite (_get_client_run _ _ _ _ Hb Hcl) in Hd.
  - apply _get_client_Raise in Hb. by rewrite Hb in Hd.
  - by apply base_get_client_not_Dangling in Hb.
Qed.

(** ** [get_model] *)

Lemma get_model_run model_name w :
  get_model model_name w =
    match _get_client w with
    | Ok c w' => Ok (OpenAIChatCompletionsModel (default DEFAULT_MODEL model_name) c) w'
    | Raise e => Raise e
    | Dangling => Dangling
    end.
Proof. unfold get_model. run. by destruct model_name. Qed.

Lemma get_model_Ok model_name w m w' :
  get_model model_name w = Ok m w' →
  ∃ c, _get_client w = Ok c w' ∧
       m = OpenAIChatCompletionsModel (default DEFAULT_MODEL model_name) c.
Proof.
  rewrite get_model_run. destruct (_get_client w) as [c w1| |]; [|done..].
  intros [= <- <-]. eauto.
Qed.

(** ** The gateway invariant *)

Lemma gateway_inv_constructed api_key http_referer site_title use_responses h :
  gateway_inv (constructed api_key http_referer site_title use_responses h).
Proof. by repeat split. Qed.

Lemma gateway_inv_valid w : gateway_inv w → client_valid w.
Proof. intros (_ & _ & Hc) c Hs. destruct (Hc c Hs) as (cl & -> & _). eauto. Qed.

Lemma gateway_inv_get_client w c w' :
  gateway_inv w → _get_client w = Ok c w' → gateway_inv w'.
Proof.
  intros (Hu & Hr & Hc) Hg. pose proof (_get_client_self _ _ _ Hg) as Hs.
  unfold gateway_inv. rewrite Hs. simpl. split_and!; [done..|].
  intros ? [= <-].
  apply _get_client_Ok in Hg as [Hb _].
  apply base_get_client_Ok in Hb as [[Hcached ->]|(_ & -> & hdrs & _ & ->)]; [eauto|].
  exists (created (self w) hdrs). simpl. split.
  - by apply list_lookup_middle.
  - by rewrite Hu.
Qed.

Lemma gateway_inv_store w c cl cl' :
  heap w !! c = Some cl → base_url cl' = base_url cl →
  gateway_inv w → gateway_inv (store c cl' w).
Proof.
  intros Hcl Hbase (Hu & Hr & Hc). split_and!; [done..|].
  simpl. intros c0 Hc0. destruct (Hc c0 Hc0) as (cl0 & Hcl0 & Hb0).
  destruct (decide (c = c0)) as [->|Hne].
  - exists cl'. split; [|congruence].
    apply list_lookup_insert_eq. by eapply lookup_lt_Some.
  - exists cl0. by rewrite list_lookup_insert_ne.
Qed.

Lemma gateway_inv_step w w' : step w w' → gateway_inv w → gateway_inv w'.
Proof.
  intros Hstep Hinv. destruct Hstep as [w c w' Hg|w n m w' Hg|w c cl k v Hcl|w c cl k Hcl|w cl].
  - by eapply gateway_inv_get_client.
  - apply get_model_Ok in Hg as (c & Hg & _). by eapply gateway_inv_get_client.
  - by apply (gateway_inv_store w c cl).
  - by apply (gateway_inv_store w c cl).
  - destruct Hinv as (Hu & Hr & Hc). split_and!; [done..|].
    simpl. intros c0 Hc0. destruct (Hc c0 Hc0) as (cl0 & Hcl0 & Hb0).
    exists cl0. split; [|done]. by apply lookup_app_l_Some.
Qed.

Lemma gateway_inv_reachable w w' : rtc step w w' → gateway_inv w → gateway_inv w'.
Proof. induction 1; eauto using gateway_inv_step. Qed.

(** * The claims *)

(** ** Model resolution *)

(** C1: [get_model(None)] returns a model bound to exactly the default
    identifier "openai/gpt-4o": every model it returns carries that
    name, and it returns one whenever the client is acquired. *)
Theorem get_model_None_default w :
  (∀ m w', get_model None w = Ok m w' → model_of m = "openai/gpt-4o") ∧
  (∀ c w', _get_client w = Ok c w' →
     get_model None w = Ok (OpenAIChatCompletionsModel "openai/gpt-4o" c) w').
Proof.
  split.
  - intros m w' Hm. by apply get_model_Ok in Hm as (c & _ & ->).
  - intros c w' Hg. by rewrite get_model_run, Hg.
Qed.

(** C2: [get_model(name)] with a name returns a model bound to exactly
    that string: the name is neither parsed nor checked nor changed, and
    a model is returned for every string whenever the client is
    acquired. *)
Theorem get_model_name_unmodified (name : string) w :
  (∀ m w', get_model (Some name) w = Ok m w' → model_of m = name) ∧
  (∀ c w', _get_client w = Ok c w' →
     get_model (Some name) w = Ok (OpenAIChatCompletionsModel name c) w').
Proof.
  split.
  - intros m w' Hm. by apply get_model_Ok in Hm as (c & _ & ->).
  - intros c w' Hg. by rewrite get_model_run, Hg.
Qed.

(** C8: for every model name, absent or present, a model [get_model]
    returns is the chat-completions one, bound to the handle
    [_get_client] returned in that call, which is the handle the
    provider has cached; one is returned whenever the client is
    acquired; the responses one is never returned. *)
Theorem get_model_always_chat_completions (model_name : option string) w :
  (∀ m w', get_model model_name w = Ok m w' →
     is_chat_completions m = true ∧
     _get_client w = Ok (client_of m) w' ∧
     _client (super (self w')) = Some (client_of m)) ∧
  (∀ c w', _get_client w = Ok c w' →
     ∃ name, get_model model_name w = Ok (OpenAIChatCompletionsModel name c) w') ∧
  (∀ name c w', get_model model_name w ≠ Ok (OpenAIResponsesModel name c) w').
Proof.
  split_and!.
  - intros m w' Hm. apply get_model_Ok in Hm as (c & Hg & ->). simpl.
    split_and!; [done..|]. by rewrite (_get_client_self _ _ _ Hg).
  - intros c w' Hg. rewrite get_model_run, Hg. eauto.
  - intros name c w' Hm. by apply get_model_Ok in Hm as (c' & _ & ?).
Qed.

(** C10: the default is substituted only for [None].  A given string,
    the empty one included, is the name the model is bound to; a model
    bound to the default identifier comes from [None] or from that very
    string. *)
Theorem get_model_default_only_for_None w :
  (∀ m w', get_model (Some "") w = Ok m w' →
     model_of m = "" ∧ model_of m ≠ DEFAULT_MODEL) ∧
  (∀ name m w', get_model (Some name) w = Ok m w' → model_of m = name) ∧
  (∀ model_name m w', get_model model_name w = Ok m w' →
     model_of m = DEFAULT_MODEL →
     model_name = None ∨ model_name = Some DEFAULT_MODEL) ∧
  (∀ c w', _get_client w = Ok c w' →
     get_model (Some "") w = Ok (OpenAIChatCompletionsModel "" c) w').
Proof.
  split_and!.
  - intros m w' Hm. by apply get_model_Ok in Hm as (c & _ & ->).
  - intros name m w' Hm. by apply get_model_Ok in Hm as (c & _ & ->).
  - intros [name|] m w' Hm Hd; [|by left].
    apply get_model_Ok in Hm as (c & _ & ->). simpl in Hd. right. by rewrite Hd.
  - intros c w' Hg. by rewrite get_model_run, Hg.
Qed.

(** ** Client acquisition *)

(** C3: [_get_client] is idempotent.  After a call that returned the
    handle [c], the handle is the cached one, and a second call returns
    the same handle and leaves the whole world, so also the header dict
    of the client, exactly as the first call left it. *)
Theorem _get_client_idempotent w c w1 :
  _get_client w = Ok c w1 →
  _client (super (self w1)) = Some c ∧
  _get_client w1 = Ok c w1 ∧
  (∀ c2 w2, _get_client w1 = Ok c2 w2 → c2 = c ∧ heap w2 !! c = heap w1 !! c).
Proof.
  intros Hg. pose proof (_get_client_again _ _ _ Hg) as Hagain.
  split_and!.
  - by rewrite (_get_client_self _ _ _ Hg).
  - done.
  - intros c2 w2. rewrite Hagain. by intros [= <- <-].
Qed.

(** C4: a provider whose referer (title) is absent or empty never has
    "HTTP-Referer" ("X-Title") set by [_get_client]: whenever the base
    class hands back a client, [_get_client] returns it without an
    error, and the entry under that key is what it was on the client of
    the base class; with both values absent or empty nothing is written
    at all. *)
Theorem _get_client_absent_attribution_not_set w c w0 :
  client_valid w →
  OpenAIProvider_get_client w = Ok c w0 →
  ∃ cl w' cl',
    heap w0 !! c = Some cl ∧
    _get_client w = Ok c w' ∧
    heap w' !! c = Some cl' ∧
    (absent_or_empty (_http_referer (self w)) →
       default_headers cl' !! "HTTP-Referer" = default_headers cl !! "HTTP-Referer") ∧
    (absent_or_empty (_site_title (self w)) →
       default_headers cl' !! "X-Title" = default_headers cl !! "X-Title") ∧
    (absent_or_empty (_http_referer (self w)) →
     absent_or_empty (_site_title (self w)) → w' = w0).
Proof.
  intros Hv Hb. destruct (base_get_client_valid _ _ _ Hv Hb) as [cl Hcl].
  exists cl, w0, cl. split_and!; [done|by apply (_get_client_run _ _ _ cl)|done..].
Qed.

(** ** Construction *)

(** C6: [use_responses] has no influence.  Two constructions that differ
    only in it ([Some true], [Some false] or [None]) give the same
    provider and the same world, so every later behaviour is the same;
    the base class is initialised with [use_responses=False] whatever
    the flag and whatever the process-wide default, and the selector is
    still [False] in every world the provider reaches. *)
Theorem use_responses_ignored api_key http_referer site_title (u1 u2 : option bool) :
  __init__ api_key http_referer site_title u1 = __init__ api_key http_referer site_title u2 ∧
  _use_responses (super (__init__ api_key http_referer site_title u1)) = false ∧
  (∀ h model_name,
     get_model model_name (constructed api_key http_referer site_title u1 h) =
     get_model model_name (constructed api_key http_referer site_title u2 h)) ∧
  (∀ h w, rtc step (constructed api_key http_referer site_title u1 h) w →
     rtc step (constructed api_key http_referer site_title u2 h) w ∧
     _use_responses (super (self w)) = false).
Proof.
  split_and!; [done..|].
  intros h w Hreach. split; [done|].
  eapply gateway_inv_reachable in Hreach; [|apply gateway_inv_constructed].
  by destruct Hreach as (_ & ? & _).
Qed.

(** C7: whatever the construction parameters, in every world the
    provider reaches, [_get_client] reads through no dangling handle,
    and the handle it returns points at a client bound to the endpoint
    "https://openrouter.ai/api/v1". *)
Theorem client_base_url_fixed api_key http_referer site_title use_responses h w :
  rtc step (constructed api_key http_referer site_title use_responses h) w →
  _get_client w ≠ Dangling ∧
  ∀ c w', _get_client w = Ok c w' →
    ∃ cl, heap w' !! c = Some cl ∧ base_url cl = "https://openrouter.ai/api/v1".
Proof.
  intros Hreach.
  eapply gateway_inv_reachable in Hreach; [|apply gateway_inv_constructed].
  split; [by apply _get_client_not_Dangling, gateway_inv_valid|].
  intros c w' Hg.
  destruct (gateway_inv_get_client _ _ _ Hreach Hg) as (_ & _ & Hc).
  apply Hc. by rewrite (_get_client_self _ _ _ Hg).
Qed.

(** ** Errors *)

(** C9: the module validates nothing and raises nothing of its own.
    Construction stores the credential and the attribution values as
    given, whatever they are.  With a valid cache, [_get_client] either
    returns or passes on the exception the constructor of the client
    raised on the stored credential and endpoint.  For every model name
    [get_model] returns when [_get_client] does and otherwise ends as
    [_get_client] does.  Right after construction, [get_model] returns
    for every name unless the constructor of the client raises. *)
Theorem no_validation_no_own_errors :
  (∀ api_key http_referer site_title use_responses,
     let p := __init__ api_key http_referer site_title use_responses in
     _stored_api_key (super p) = api_key ∧
     _http_referer p = http_referer ∧
     _site_title p = site_title) ∧
  (∀ w, client_valid w →
     match _get_client w with
     | Ok c w' => _client (super (self w')) = Some c
     | Raise e =>
         _client (super (self w)) = None ∧
         AsyncOpenAI_new (_stored_api_key (super (self w)))
                         (_stored_base_url (super (self w))) = inl e
     | Dangling => False
     end) ∧
  (∀ w model_name,
     match _get_client w with
     | Ok c w' => ∃ m, get_model model_name w = Ok m w'
     | Raise e => get_model model_name w = Raise e
     | Dangling => get_model model_name w = Dangling
     end) ∧
  (∀ api_key http_referer site_title use_responses h model_name,
     let w := constructed api_key http_referer site_title use_responses h in
     match AsyncOpenAI_new api_key (Some "https://openrouter.ai/api/v1") with
     | inl e => get_model model_name w = Raise e
     | inr hdrs => ∃ m w', get_model model_name w = Ok m w'
     end).
Proof.
  split_and!.
  - done.
  - intros w Hv. destruct (_get_client w) as [c w'|e|] eqn:Hg.
    + by rewrite (_get_client_self _ _ _ Hg).
    + by apply base_get_client_Raise, _get_client_Raise.
    + by apply _get_client_not_Dangling in Hg.
  - intros w model_name. rewrite get_model_run.
    destruct (_get_client w); eauto.
  - intros api_key http_referer site_title use_responses h model_name w.
    rewrite get_model_run.
    destruct (AsyncOpenAI_new _ _) as [e|hdrs] eqn:Hn.
    + assert (Hr : _get_client w = Raise e).
      { by apply _get_client_Raise, base_get_client_raise. }
      by rewrite Hr.
    + pose proof (base_get_client_new w hdrs eq_refl Hn) as Hb.
      erewrite _get_client_run; [eauto|exact Hb|].
      simpl. by apply list_lookup_middle.
Qed.

(** * Further properties of the module *)

(** ** Helper facts *)

Lemma add_header_if_missing_falsy c key value w :
  truthy value = false → add_header_if_missing c key value w = Ok tt w.
Proof.
  intros Hf. unfold add_header_if_missing. destruct value as [v|]; [|done].
  by rewrite Hf.
Qed.

(** A returning [_get_client] leaves a valid cache. *)
Lemma client_valid_get_client w c w' :
  client_valid w → _get_client w = Ok c w' → client_valid w'.
Proof.
  intros Hv Hg c0. rewrite (_get_client_self _ _ _ Hg). simpl. intros [= <-].
  apply _get_client_Ok in Hg as [Hb _].
  by eapply base_get_client_valid.
Qed.

(** A returning [_get_client] returns the handle that was cached, when
    one was. *)
Lemma _get_client_cached w c0 c w' :
  _client (super (self w)) = Some c0 → _get_client w = Ok c w' → c = c0.
Proof.
  intros Hc Hg. apply _get_client_Ok in Hg as [Hb _].
  apply base_get_client_Ok in Hb as [[Hc' _]|(Hnone & _)]; congruence.
Qed.

(** With a valid cache that holds a handle, [_get_client] returns. *)
Lemma _get_client_cached_returns w c :
  client_valid w → _client (super (self w)) = Some c →
  ∃ w', _get_client w = Ok c w'.
Proof.
  intros Hv Hc. pose proof (base_get_client_cached w c Hc) as Hb.
  destruct (Hv c Hc) as [cl Hcl].
  eexists. by apply (_get_client_run w c w cl).
Qed.

Lemma step_cached w w' c :
  step w w' → _client (super (self w)) = Some c → _client (super (self w')) = Some c.
Proof.
  intros Hstep Hc. destruct Hstep as [w c' w' Hg|w n m w' Hg| | |]; [| |done..].
  - rewrite (_get_client_self _ _ _ Hg). simpl. f_equal. by eapply _get_client_cached.
  - apply get_model_Ok in Hg as (c' & Hg & _).
    rewrite (_get_client_self _ _ _ Hg). simpl. f_equal. by eapply _get_client_cached.
Qed.

Lemma step_client_valid w w' : step w w' → client_valid w → client_valid w'.
Proof.
  intros Hstep Hv. destruct Hstep as [w c w' Hg|w n m w' Hg|w c cl k v Hcl|w c cl k Hcl|w cl].
  - by eapply client_valid_get_client.
  - apply get_model_Ok in Hg as (c & Hg & _). by eapply client_valid_get_client.
  - intros c0 Hc0. simpl in *. apply lookup_lt_is_Some. rewrite length_insert.
    by apply lookup_lt_is_Some, Hv.
  - intros c0 Hc0. simpl in *. apply lookup_lt_is_Some. rewrite length_insert.
    by apply lookup_lt_is_Some, Hv.
  - intros c0 Hc0. simpl in *. apply lookup_lt_is_Some. rewrite length_app.
    apply Hv, lookup_lt_is_Some in Hc0. lia.
Qed.

Lemma step_configuration w w' :
  step w w' →
  _http_referer (self w') = _http_referer (self w) ∧
  _site_title (self w') = _site_title (self w) ∧
  _stored_api_key (super (self w')) = _stored_api_key (super (self w)).
Proof.
  intros Hstep. destruct Hstep as [w c' w' Hg|w n m w' Hg| | |]; [| |done..].
  - by rewrite (_get_client_self _ _ _ Hg).
  - apply get_model_Ok in Hg as (c' & Hg & _). by rewrite (_get_client_self _ _ _ Hg).
Qed.

Lemma rtc_step_cached w w' c :
  rtc step w w' → _client (super (self w)) = Some c → _client (super (self w')) = Some c.
Proof. induction 1; eauto using step_cached. Qed.

Lemma rtc_step_client_valid w w' : rtc step w w' → client_valid w → client_valid w'.
Proof. induction 1; eauto using step_client_valid. Qed.

(** ** [_get_client] *)

(** X1: a provider with neither a referer nor a title (each absent or
    empty) has the [_get_client] of its base class: in every world the
    two end alike, with the same handle and the same world or with the
    same exception, and the header dict is not even read. *)
Theorem _get_client_without_attribution w :
  absent_or_empty (_http_referer (self w)) →
  absent_or_empty (_site_title (self w)) →
  _get_client w = OpenAIProvider_get_client w.
Proof.
  intros Hr%truthy_false Ht%truthy_false. unfold _get_client. run.
  destruct (OpenAIProvider_get_client w) as [c w0| |] eqn:Hb; [|done..].
  pose proof (base_get_client_self _ _ _ Hb) as Hs.
  rewrite add_header_if_missing_falsy by by rewrite Hs.
  by rewrite add_header_if_missing_falsy by by rewrite Hs.
Qed.

(** X2: the two header assignments never reach the client.  Whatever
    the referer and the title, when the base class hands back a handle
    that points at a client, [_get_client] returns that handle and
    leaves the world, so also the headers of that client, exactly as
    the base class left it: no header is added, changed or removed. *)
Theorem _get_client_leaves_headers w c w0 cl :
  OpenAIProvider_get_client w = Ok c w0 →
  heap w0 !! c = Some cl →
  _get_client w = Ok c w0.
Proof. apply _get_client_run. Qed.

(** X3: a returning [_get_client] only adds.  Every client the heap
    held before the call is still there, with the credential and the
    endpoint it had and with every header it had; a client other than
    the returned one is exactly as it was. *)
Theorem _get_client_only_adds w c w' i cl :
  _get_client w = Ok c w' →
  heap w !! i = Some cl →
  ∃ cl',
    heap w' !! i = Some cl' ∧
    api_key cl' = api_key cl ∧
    base_url cl' = base_url cl ∧
    default_headers cl ⊆ default_headers cl' ∧
    (i ≠ c → cl' = cl).
Proof.
  intros Hg Hi. apply _get_client_Ok in Hg as [Hb _].
  exists cl. split_and!; [|done..].
  apply base_get_client_Ok in Hb as [[_ ->]|(_ & _ & hdrs & _ & ->)]; [done|].
  simpl. by apply lookup_app_l_Some.
Qed.

(** ** [get_model] *)

(** X4: all models of a provider share one client.  Once [get_model]
    has returned a model, then whatever the provider and the other
    holders of handles do next, [get_model] returns, for every name, a
    chat-completions model of that name bound to the handle of the
    first model. *)
Theorem models_share_one_client w n1 m1 w1 w2 n2 :
  client_valid w →
  get_model n1 w = Ok m1 w1 →
  rtc step w1 w2 →
  ∃ w3, get_model n2 w2 =
          Ok (OpenAIChatCompletionsModel (default DEFAULT_MODEL n2) (client_of m1)) w3.
Proof.
  intros Hv Hm Hreach. apply get_model_Ok in Hm as (c & Hg & ->). simpl.
  assert (Hc1 : _client (super (self w1)) = Some c) by by rewrite (_get_client_self _ _ _ Hg).
  pose proof (client_valid_get_client _ _ _ Hv Hg) as Hv1.
  pose proof (rtc_step_cached _ _ _ Hreach Hc1) as Hc2.
  pose proof (rtc_step_client_valid _ _ Hreach Hv1) as Hv2.
  destruct (_get_client_cached_returns _ _ Hv2 Hc2) as [w3 Hg2].
  exists w3. by rewrite get_model_run, Hg2.
Qed.

(** ** The provider over time *)

(** X6: the configuration is immutable.  In every world the provider
    reaches after construction, the credential, the referer and the
    title it holds are the ones [__init__] was given. *)
Theorem configuration_is_immutable api_key http_referer site_title use_responses h w :
  rtc step (constructed api_key http_referer site_title use_responses h) w →
  _stored_api_key (super (self w)) = api_key ∧
  _http_referer (self w) = http_referer ∧
  _site_title (self w) = site_title.
Proof.
  revert w. apply rtc_ind_r.
  - done.
  - intros w1 w2 _ Hstep (Hk & Hr & Ht).
    apply step_configuration in Hstep as (Hr' & Ht' & Hk').
    by rewrite Hk', Hr', Ht'.
Qed.

End Provider.

Arguments Ok {E A} a w.
Arguments Raise {E A} e.
Arguments Dangling {E A}.

(** * Runs on the sample worlds *)

Example first_call_leaves_library_headers :
  ∃ w', _get_client string sample_new "" sample_attributed = Ok 0 w' ∧
        default_headers <$> heap w' !! 0 =
          Some {[ "User-Agent" := "AsyncOpenAI/Python" ]}.
Proof. eexists. split; vm_compute; reflexivity. Qed.

Example preset_referer_is_kept :
  _get_client string sample_new "" sample_preset = Ok 0 sample_preset.
Proof. vm_compute. reflexivity. Qed.

Example plain_provider_writes_nothing :
  _get_client string sample_new "" sample_plain = Ok 1 sample_plain.
Proof. vm_compute. reflexivity. Qed.

Example missing_credential_is_the_library_error :
  get_model string sample_new "" (Some "openai/gpt-4o")
    (constructed false None None None None []) =
  Raise "The api_key client option must be set".
Proof. vm_compute. reflexivity. Qed.

(** C5: the code at a provider with a non-empty referer and a
    non-empty title whose new client has neither header.  [_get_client]
    returns the handle, and the client still has neither "HTTP-Referer"
    nor "X-Title": the two assignments of [_get_client] went to the
    dict the read of [default_headers] built and are lost, where the
    comment above them says the headers are added. *)
Theorem _get_client_attribution_not_set :
  ∃ w' cl',
    _http_referer (self sample_attributed) = Some "https://example.com" ∧
    _site_title (self sample_attributed) = Some "My App" ∧
    _get_client string sample_new "" sample_attributed = Ok 0 w' ∧
    heap w' !! 0 = Some cl' ∧
    default_headers cl' !! "HTTP-Referer" = None ∧
    default_headers cl' !! "X-Title" = None.
Proof. eexists _, _. split_and!; vm_compute; reflexivity. Qed.

(** * The theorems at the sample worlds *)

Lemma get_model_None_default_witness :
  ∃ w', get_model string sample_new "" None sample_attributed =
          Ok (OpenAIChatCompletionsModel "openai/gpt-4o" 0) w'.
Proof.
  eexists.
  apply (proj2 (get_model_None_default string sample_new "" sample_attributed)).
  vm_compute. reflexivity.
Defined.

Lemma get_model_name_unmodified_witness :
  ∃ w', get_model string sample_new "" (Some "anthropic/claude-3-opus") sample_preset =
          Ok (OpenAIChatCompletionsModel "anthropic/claude-3-opus" 0) w'.
Proof.
  eexists.
  apply (proj2 (get_model_name_unmodified string sample_new ""
                  "anthropic/claude-3-opus" sample_preset)).
  vm_compute. reflexivity.
Defined.

Lemma get_model_default_only_for_None_witness :
  ∃ w', get_model string sample_new "" (Some "") sample_attributed =
          Ok (OpenAIChatCompletionsModel "" 0) w'.
Proof.
  eexists.
  apply (get_model_default_only_for_None string sample_new "" sample_attributed).
  vm_compute. reflexivity.
Defined.

Lemma get_model_always_chat_completions_witness :
  ∃ m w', get_model string sample_new "" (Some "not a model") sample_plain = Ok m w' ∧
          is_chat_completions m = true ∧
          _client (super (self w')) = Some (client_of m).
Proof.
  assert (∃ m w', get_model string sample_new "" (Some "not a model") sample_plain = Ok m w')
    as (m & w' & Hm).
  { eexists _, _. vm_compute. reflexivity. }
  exists m, w'. split; [exact Hm|].
  destruct (proj1 (get_model_always_chat_completions string sample_new ""
                     (Some "not a model") sample_plain) m w' Hm) as (Hchat & _ & Hcached).
  split; assumption.
Defined.

Lemma _get_client_idempotent_witness :
  ∃ c w1, _get_client string sample_new "" sample_attributed = Ok c w1 ∧
          _client (super (self w1)) = Some c ∧
          _get_client string sample_new "" w1 = Ok c w1.
Proof.
  assert (∃ c w1, _get_client string sample_new "" sample_attributed = Ok c w1)
    as (c & w1 & Hg).
  { eexists _, _. vm_compute. reflexivity. }
  exists c, w1. split; [exact Hg|].
  destruct (_get_client_idempotent string sample_new "" sample_attributed c w1 Hg)
    as (Hcached & Hagain & _).
  split; assumption.
Defined.

Lemma _get_client_absent_attribution_not_set_witness :
  ∃ w' cl', _get_client string sample_new "" sample_plain = Ok 1 w' ∧
            heap w' !! 1 = Some cl' ∧
            default_headers cl' !! "HTTP-Referer" = None ∧
            default_headers cl' !! "X-Title" = None.
Proof.
  destruct (_get_client_absent_attribution_not_set string sample_new ""
              sample_plain 1 sample_plain)
    as (cl & w' & cl' & Hcl & Hg & Hcl' & Hreferer & Htitle & _).
  - intros c Hc. injection Hc as <-. eexists. reflexivity.
  - reflexivity.
  - injection Hcl as <-. exists w', cl'. split; [exact Hg|]. split; [exact Hcl'|]. split.
    + rewrite Hreferer; [reflexivity|]. left. reflexivity.
    + rewrite Htitle; [reflexivity|]. right. reflexivity.
Defined.

Lemma use_responses_ignored_witness :
  ∃ w, rtc (step string sample_new "")
           (constructed true (Some "sk-or-1") None None (Some true) []) w ∧
       rtc (step string sample_new "")
           (constructed true (Some "sk-or-1") None None None []) w ∧
       _client (super (self w)) = Some 0 ∧
       _use_responses (super (self w)) = false.
Proof.
  assert (∃ w, _get_client string sample_new ""
                 (constructed true (Some "sk-or-1") None None (Some true) []) = Ok 0 w)
    as (w & Hg).
  { eexists. vm_compute. reflexivity. }
  assert (Hreach : rtc (step string sample_new "")
                     (constructed true (Some "sk-or-1") None None (Some true) []) w).
  { apply rtc_once. eapply step_get_client. exact Hg. }
  exists w.
  destruct (proj2 (proj2 (proj2 (use_responses_ignored string sample_new "" true
              (Some "sk-or-1") None None (Some true) None))) [] w Hreach) as (Hreach' & Hsel).
  split; [exact Hreach|]. split; [exact Hreach'|]. split; [|exact Hsel].
  revert Hg. vm_compute. intros Hg. injection Hg as <-. reflexivity.
Defined.

Lemma client_base_url_fixed_witness :
  ∃ w c w' cl,
    rtc (step string sample_new "")
        (constructed false (Some "sk-or-1") (Some "https://example.com") None None []) w ∧
    _get_client string sample_new "" w = Ok c w' ∧
    heap w' !! c = Some cl ∧
    base_url cl = "https://openrouter.ai/api/v1".
Proof.
  assert (∃ w, get_model string sample_new "" None
                 (constructed false (Some "sk-or-1") (Some "https://example.com") None None [])
               = Ok (OpenAIChatCompletionsModel "openai/gpt-4o" 0) w)
    as (w & Hm).
  { eexists. vm_compute. reflexivity. }
  assert (Hreach : rtc (step string sample_new "")
                     (constructed false (Some "sk-or-1") (Some "https://example.com")
                        None None []) w).
  { apply rtc_once. eapply step_get_model. exact Hm. }
  assert (∃ c w', _get_client string sample_new "" w = Ok c w') as (c & w' & Hg).
  { revert Hm. vm_compute. intros Hm. injection Hm as <-. eexists _, _. reflexivity. }
  destruct (proj2 (client_base_url_fixed string sample_new "" false
              (Some "sk-or-1") (Some "https://example.com") None None [] w Hreach) c w' Hg)
    as (cl & Hcl & Hurl).
  exists w, c, w', cl. split; [exact Hreach|]. split; [exact Hg|]. split; assumption.
Defined.

Lemma no_validation_no_own_errors_witness :
  match _get_client string sample_new "" sample_plain with
  | Ok c w' => _client (super (self w')) = Some c
  | Raise e => False
  | Dangling => False
  end ∧
  get_model string sample_new "" (Some "no/such model")
    (constructed false None None None None []) =
  Raise "The api_key client option must be set".
Proof.
  pose proof (no_validation_no_own_errors string sample_new "" false)
    as (_ & Hacq & _ & Hnew).
  split.
  - assert (Hv : client_valid sample_plain).
    { intros c Hc. injection Hc as <-. eexists. reflexivity. }
    specialize (Hacq sample_plain Hv). revert Hacq.
    destruct (_get_client string sample_new "" sample_plain) as [c w'|e|].
    + intros H. exact H.
    + intros [Hnone _]. discriminate Hnone.
    + intros H. exact H.
  - exact (Hnew None None None None [] (Some "no/such model")).
Defined.

Lemma _get_client_without_attribution_witness :
  _get_client string sample_new "" sample_plain =
  OpenAIProvider_get_client string sample_new "" sample_plain.
Proof.
  apply (_get_client_without_attribution string sample_new "" sample_plain).
  - left. reflexivity.
  - right. reflexivity.
Defined.

Lemma _get_client_leaves_headers_witness :
  _get_client string sample_new "" sample_preset = Ok 0 sample_preset.
Proof.
  apply (_get_client_leaves_headers string sample_new "" sample_preset 0 sample_preset
           {| api_key := Some "sk-or-3";
              base_url := "https://openrouter.ai/api/v1";
              default_headers := {[ "HTTP-Referer" := "https://elsewhere.org" ]} |}).
  - reflexivity.
  - reflexivity.
Defined.

Lemma _get_client_only_adds_witness :
  ∃ w' cl', _get_client string sample_new "" sample_plain = Ok 1 w' ∧
            heap w' !! 0 = Some cl' ∧
            cl' = {| api_key := Some "sk-other";
                     base_url := "https://api.openai.com/v1";
                     default_headers := ∅ |}.
Proof.
  assert (∃ w', _get_client string sample_new "" sample_plain = Ok 1 w') as (w' & Hg).
  { eexists. vm_compute. reflexivity. }
  destruct (_get_client_only_adds string sample_new "" sample_plain 1 w' 0
              {| api_key := Some "sk-other";
                 base_url := "https://api.openai.com/v1";
                 default_headers := ∅ |} Hg)
    as (cl' & Hcl' & _ & _ & _ & Hsame).
  - reflexivity.
  - exists w', cl'. split; [exact Hg|]. split; [exact Hcl'|]. apply Hsame. discriminate.
Defined.

Lemma models_share_one_client_witness :
  ∃ w1 w2 w3,
    get_model string sample_new "" None sample_attributed =
      Ok (OpenAIChatCompletionsModel "openai/gpt-4o" 0) w1 ∧
    rtc (step string sample_new "") w1 w2 ∧
    length (heap w2) = S (length (heap w1)) ∧
    get_model string sample_new "" (Some "anthropic/claude-3-opus") w2 =
      Ok (OpenAIChatCompletionsModel "anthropic/claude-3-opus" 0) w3.
Proof.
  assert (∃ w1, get_model string sample_new "" None sample_attributed =
                  Ok (OpenAIChatCompletionsModel "openai/gpt-4o" 0) w1) as (w1 & Hm).
  { eexists. vm_compute. reflexivity. }
  assert (Hv : client_valid sample_attributed).
  { intros c Hc. discriminate Hc. }
  set (other := {| api_key := Some "sk-other";
                   base_url := "https://api.openai.com/v1";
                   default_headers := ∅ |}).
  set (w2 := {| self := self w1; heap := heap w1 ++ [other] |}).
  assert (Hreach : rtc (step string sample_new "") w1 w2).
  { apply rtc_once. apply step_alloc. }
  destruct (models_share_one_client string sample_new "" sample_attributed None
              (OpenAIChatCompletionsModel "openai/gpt-4o" 0) w1 w2
              (Some "anthropic/claude-3-opus") Hv Hm Hreach) as (w3 & Hm2).
  exists w1, w2, w3. split; [exact Hm|]. split; [exact Hreach|]. split; [|exact Hm2].
  subst w2. simpl. rewrite length_app. simpl. lia.
Defined.

Lemma configuration_is_immutable_witness :
  ∃ w, rtc (step string sample_new "")
           (constructed false (Some "sk-or-1") (Some "https://example.com") None None []) w ∧
       _client (super (self w)) = Some 0 ∧
       _stored_api_key (super (self w)) = Some "sk-or-1" ∧
       _http_referer (self w) = Some "https://example.com" ∧
       _site_title (self w) = None.
Proof.
  assert (∃ w, _get_client string sample_new ""
                 (constructed false (Some "sk-or-1") (Some "https://example.com") None None [])
               = Ok 0 w) as (w & Hg).
  { eexists. vm_compute. reflexivity. }
  assert (Hreach : rtc (step string sample_new "")
                     (constructed false (Some "sk-or-1") (Some "https://example.com")
                        None None []) w).
  { apply rtc_once. eapply step_get_client. exact Hg. }
  destruct (configuration_is_immutable string sample_new "" false
              (Some "sk-or-1") (Some "https://example.com") None None [] w Hreach)
    as (Hk & Hr & Ht).
  exists w. split; [exact Hreach|]. split.
  - revert Hg. vm_compute. intros Hg. injection Hg as <-. reflexivity.
  - split; [exact Hk|]. split; [exact Hr|exact Ht].
Defined.
